(** * Talos: EtcFileSpec resource and the UpdateEndpoint integration suite

    A shallow embedding of
    - [pkg/machinery/resources/files/etcfile_spec.go]
    - [internal/integration/api/update-endpoint.go]
    together with a model of the resource store that the specification
    describes (its code is not part of the excerpt). *)

From Stdlib Require Import NArith.
From stdpp Require Import gmap strings list fin_maps.

Local Open Scope string_scope.

(** ** Go values used by both packages *)

Module golang.

(** A Go slice: [nil] and the empty, allocated slice are different values
    of the same length. *)
Inductive slice (A : Type) : Type :=
| nil_slice
| make_slice (elems : list A).
Arguments nil_slice {A}.
Arguments make_slice {A} elems.

Definition elems {A} (s : slice A) : list A :=
  match s with
  | nil_slice => []
  | make_slice l => l
  end.

Definition len {A} (s : slice A) : nat := length (elems s).

(** A Go [error] value, as far as the suite builds and inspects it. *)
Inductive error : Type :=
| Errorf (msg : string)          (* fmt.Errorf, message already formatted *)
| ApiError (msg : string)        (* error handed back by a client call *)
| ExpectedError (err : error)    (* retry.ExpectedError(err) *)
| TimeoutError                   (* the retry deadline expired *)
| ErrorSet (err : error).        (* what the retry loop hands back when it
                                    gives up on an error of the callback *)

(** [for _, x := range l { ... return r ... }]: the body is run on each
    element in order, the first [return] leaves the loop. *)
Fixpoint for_range {A R} (l : list A) (body : A -> option R) : option R :=
  match l with
  | [] => None
  | x :: rest =>
      match body x with
      | Some r => Some r
      | None => for_range rest body
      end
  end.

End golang.

(** ** Package [files]: the EtcFileSpec resource *)

Module resource.

Definition Namespace := string.
Definition ID := string.
Definition Type_ := string.

(** [resource.Version]: absent until a store assigns one. *)
Inductive Version : Type :=
| VersionUndefined
| VersionOf (n : N).

(** [resource.NewMetadata(ns, typ, id, ver)] *)
Record Metadata : Type := NewMetadata {
  md_Namespace : Namespace;
  md_Type : Type_;
  md_ID : ID;
  md_Version : Version
}.

End resource.

Module meta.

Record PrintColumn : Type := {
  pc_Name : string;
  pc_JSONPath : string
}.

(** The fields of [meta.ResourceDefinitionSpec] that the literal in
    [ResourceDefinition] sets. *)
Record ResourceDefinitionSpec : Type := {
  Type_ : resource.Type_;
  Aliases : golang.slice resource.Type_;
  DefaultNamespace : resource.Namespace;
  PrintColumns : golang.slice PrintColumn
}.

End meta.

Module files.

(** const EtcFileSpecType = resource.Type("EtcFileSpecs.files.talos.dev") *)
Definition EtcFileSpecType : resource.Type_ := "EtcFileSpecs.files.talos.dev".

(** type EtcFileSpecSpec struct { Contents []byte; Mode fs.FileMode } *)
Record EtcFileSpecSpec : Type := {
  Contents : golang.slice Byte.byte;
  Mode : N   (* fs.FileMode is a uint32 *)
}.

(** type EtcFileSpecMD struct{} *)
Inductive EtcFileSpecMD : Type := EtcFileSpecMD_value.

Section WithNamespaceName.

(** [NamespaceName] is a constant of package [files] declared in another
    file of the package. *)
Variable NamespaceName : resource.Namespace.

Definition ResourceDefinition (_ : EtcFileSpecMD)
    (_ : resource.Metadata) (_ : EtcFileSpecSpec)
  : meta.ResourceDefinitionSpec :=
  {| meta.Type_ := EtcFileSpecType;
     meta.Aliases := golang.make_slice [];
     meta.DefaultNamespace := NamespaceName;
     meta.PrintColumns := golang.make_slice [] |}.

End WithNamespaceName.

End files.

(** ** Package [corev1]: the part of the Kubernetes node object the suite reads *)

Module corev1.

Definition NodeAddressType := string.
Definition NodeInternalIP : NodeAddressType := "InternalIP".

Definition ConditionStatus := string.
Definition ConditionTrue : ConditionStatus := "True".

Definition NodeConditionType := string.
Definition NodeReady : NodeConditionType := "Ready".

Record NodeAddress : Type := {
  addr_Type : NodeAddressType;
  addr_Address : string
}.

Record NodeCondition : Type := {
  cond_Type : NodeConditionType;
  cond_Status : ConditionStatus
}.

Record NodeStatus : Type := {
  Conditions : list NodeCondition;
  Addresses : list NodeAddress
}.

Record Node : Type := {
  Name : string;
  Status : NodeStatus
}.

Record NodeList : Type := {
  Items : list Node
}.

End corev1.

(** ** Package [api]: UpdateEndpointSuite, the Kubernetes side *)

Module api.

Import golang.

(** What the suite's [Clientset] answers to [CoreV1().Nodes().List]. *)
Record Clientset : Type := {
  Nodes_List : corev1.NodeList + error
}.

Definition not_found_msg (internalIP : string) : string :=
  "node with internal IP " ++ internalIP ++ " not found".

Definition no_readiness_msg (nodeInternalIP : string) : string :=
  "node " ++ nodeInternalIP ++ " has no readiness condition".

Definition getNodeByInternalIP (suite : Clientset) (internalIP : string)
  : option corev1.Node * option error :=
  match Nodes_List suite with
  | inr err => (None, Some err)
  | inl nodeList =>
      match
        for_range (corev1.Items nodeList) (fun item =>
          for_range (corev1.Addresses (corev1.Status item)) (fun address =>
            if bool_decide (corev1.addr_Type address = corev1.NodeInternalIP) then
              if bool_decide (corev1.addr_Address address = internalIP) then
                Some item
              else None
            else None))
      with
      | Some item => (Some item, None)
      | None => (None, Some (Errorf (not_found_msg internalIP)))
      end
  end.

Definition getNodeReadinessStatus (suite : Clientset) (nodeInternalIP : string)
  : corev1.ConditionStatus * option error :=
  match getNodeByInternalIP suite nodeInternalIP with
  | (_, Some err) => ("", Some err)
  | (None, None) => ("", None) (* a nil node with a nil error: Go would
                                  dereference nil here; never returned by
                                  getNodeByInternalIP *)
  | (Some node, None) =>
      match
        for_range (corev1.Conditions (corev1.Status node)) (fun condition =>
          if bool_decide (corev1.cond_Type condition = corev1.NodeReady) then
            Some (corev1.cond_Status condition)
          else None)
      with
      | Some status => (status, None)
      | None => ("", Some (Errorf (no_readiness_msg nodeInternalIP)))
      end
  end.

(** [retry.Constant(d).Retry(f)] of go-retry, an external package. [f] is
    called at once; a nil result ends the loop with nil; an error that is
    not an [ExpectedError] ends the loop with an error; an [ExpectedError]
    is retried on the next tick, unless the deadline [d] expires first,
    which ends the loop with a timeout. [ticks] is the number of ticks
    that fire before the deadline, [attempt] counts the calls of [f]. *)
Fixpoint Retry (ticks : nat) (f : nat -> option error) (attempt : nat)
  : option error :=
  match f attempt with
  | None => None
  | Some (ExpectedError _) =>
      match ticks with
      | O => Some TimeoutError
      | S ticks' => Retry ticks' f (S attempt)
      end
  | Some err => Some (ErrorSet err)
  end.

(** The closure handed to [Retry]; [suite] is the cluster as the
    Clientset sees it at this poll. *)
Definition pollReadiness (suite : Clientset) (nodeInternalIP : string)
    (checkFn : corev1.ConditionStatus -> bool) : option error :=
  match getNodeReadinessStatus suite nodeInternalIP with
  | (_, Some err) => Some err
  | (readinessStatus, None) =>
      if negb (checkFn readinessStatus) then
        Some (ExpectedError (Errorf ("node readiness status is " ++ readinessStatus)))
      else None
  end.

(** [cluster k] is what the Clientset answers at the [k]-th poll, [ticks]
    the number of retry ticks within the 5 minutes. *)
Definition waitForNodeReadinessStatus (cluster : nat -> Clientset) (ticks : nat)
    (nodeInternalIP : string) (checkFn : corev1.ConditionStatus -> bool)
  : option error :=
  Retry ticks (fun attempt => pollReadiness (cluster attempt) nodeInternalIP checkFn) 0.

(** The two predicates of TestUpdateControlPlaneEndpoint. *)
Definition nodeReady (status : corev1.ConditionStatus) : bool :=
  bool_decide (status = corev1.ConditionTrue).

Definition nodeNotReady (status : corev1.ConditionStatus) : bool :=
  negb (bool_decide (status = corev1.ConditionTrue)).

End api.

(** ** Package [v1alpha1]: the machine configuration, as far as the suite
    touches it *)

Module v1alpha1.

(** The types the excerpt does not declare: [url.URL] values and the
    fields of each configuration struct that the suite never reads. *)
Class Schema : Type := {
  URL : Type;
  ConfigRest : Type;
  ClusterRest : Type;
  ControlPlaneRest : Type
}.

Definition loc := positive.

Section WithSchema.
Context `{Schema}.

(** type Endpoint struct { *url.URL } *)
Record Endpoint : Type := {
  Endpoint_URL : option URL
}.

(** [Endpoint *Endpoint]: the control plane holds a pointer, so a write
    through a copy of the pointer is seen by the configuration. *)
Record ControlPlaneConfig : Type := {
  Endpoint_ : option loc;
  ControlPlane_rest : ControlPlaneRest
}.

Record ClusterConfig : Type := {
  ControlPlane : option ControlPlaneConfig;
  Cluster_rest : ClusterRest
}.

Record Config : Type := {
  ClusterConfig_ : option ClusterConfig;
  Config_rest : ConfigRest
}.

(** What [nodeConfig.Raw()] may hold. *)
Inductive RawConfig : Type :=
| V1Alpha1 (c : Config)
| OtherRaw.

(** The memory that holds the [Endpoint] structs. *)
Definition Heap := gmap loc Endpoint.

(** ClusterConfig.ControlPlane.Endpoint, the pointer. *)
Definition endpointPtr (c : Config) : option loc :=
  cluster ← ClusterConfig_ c; cp ← ControlPlane cluster; Endpoint_ cp.

(** ClusterConfig.ControlPlane.Endpoint.URL, read through the pointer. *)
Definition endpointURL (c : Config) (mem : gmap loc Endpoint) : option URL :=
  l ← endpointPtr c; cell ← mem !! l; Endpoint_URL cell.

End WithSchema.

End v1alpha1.

Module machineapi.

Inductive ApplyConfigurationRequest_Mode : Type :=
| ApplyConfigurationRequest_REBOOT
| ApplyConfigurationRequest_AUTO
| ApplyConfigurationRequest_NO_REBOOT
| ApplyConfigurationRequest_STAGED.

Record ApplyConfigurationRequest : Type := {
  Data : list Byte.byte;
  Mode : ApplyConfigurationRequest_Mode
}.

End machineapi.

(** ** Package [api]: UpdateEndpointSuite, the Talos side *)

Module endpoint.

Import golang v1alpha1 machineapi.

(** How a call of a suite method ends: it returns, [Require()] stops the
    test, or the Go runtime panics on a nil pointer. *)
Inductive outcome (A : Type) : Type :=
| Returned (a : A)
| FailNow
| Panic.
Arguments Returned {A} a.
Arguments FailNow {A}.
Arguments Panic {A}.

#[export] Instance outcome_bind : MBind outcome := fun A B k m =>
  match m with
  | Returned a => k a
  | FailNow => FailNow
  | Panic => Panic
  end.

(** suite.Require().NoError(err) *)
Definition Require_NoError {A} (r : A + error) : outcome A :=
  match r with
  | inl a => Returned a
  | inr _ => FailNow
  end.

(** Following a pointer: nil panics. *)
Definition deref {A} (p : option A) : outcome A :=
  match p with
  | Some a => Returned a
  | None => Panic
  end.

(** The calls that leave the test process: the Go library functions on
    URLs, the encoder of the configuration, and the machines reached
    through the Talos API. *)
Class TalosAPI `{Schema} : Type := {
  Talos : Type;
  url_Parse : string -> URL + error;
  url_String : URL -> string;
  ReadConfigFromNode : Talos -> string -> (RawConfig * gmap loc Endpoint) + error;
  Bytes : Config -> gmap loc Endpoint -> list Byte.byte + error;
  ApplyConfiguration : Talos -> string -> ApplyConfigurationRequest -> Talos + error
}.

Section WithTalos.
Context `{TalosAPI}.

(** [suite.Client]: the machines behind it, and the requests it has
    sent so far (latest last). *)
Record Client : Type := {
  machines : Talos;
  applied : list (string * ApplyConfigurationRequest)
}.

Definition Client_ApplyConfiguration (c : Client) (nodeIP : string)
    (req : ApplyConfigurationRequest) : Client + error :=
  match ApplyConfiguration (machines c) nodeIP req with
  | inl m => inl {| machines := m; applied := applied c ++ [(nodeIP, req)] |}
  | inr err => inr err
  end.

Definition updateEndpointURL (suite : Client) (nodeIP newURL : string)
  : outcome (string * Client) :=
  '(nodeConfig, mem) ← Require_NoError (ReadConfigFromNode (machines suite) nodeIP);
  nodeConfigRaw ← match nodeConfig with
                   | V1Alpha1 c => Returned c
                   | OtherRaw => FailNow
                   end;
  newEndpointURL ← Require_NoError (url_Parse newURL);
  cluster ← deref (ClusterConfig_ nodeConfigRaw);
  controlPlane ← deref (ControlPlane cluster);
  let endpoint := Endpoint_ controlPlane in
  l ← deref endpoint;
  cell ← deref (mem !! l);
  u ← deref (Endpoint_URL cell);
  let oldURL := url_String u in
  let mem := <[l := {| Endpoint_URL := Some newEndpointURL |}]> mem in
  bytes ← Require_NoError (Bytes nodeConfigRaw mem);
  suite ← Require_NoError
             (Client_ApplyConfiguration suite nodeIP
                {| Data := bytes; Mode := ApplyConfigurationRequest_NO_REBOOT |});
  Returned (oldURL, suite).

End WithTalos.

End endpoint.

(** ** The resource store of the specification *)

Module store.

(** Modelled from the spec: ResourceID = (Namespace, Type, ID) of section 3;
    the store's code is not part of the excerpt. *)
Definition ResourceID : Type := string * string * string.

(** Modelled from the spec: Phase of section 3. *)
Inductive Phase : Type := Running | TearingDown.

#[export] Instance Phase_eq_dec : EqDecision Phase.
Proof. solve_decision. Defined.

(** An opaque, schema-typed payload, in its serialized form. *)
Definition Payload : Type := string.

(** Modelled from the spec: the metadata of section 3 (the store itself is
    not part of the excerpt). Created/Updated timestamps are left out. *)
Record Metadata : Type := {
  ID : ResourceID;
  Version : N;
  Phase_ : Phase;
  Owner : option string;
  Finalizers : gset string
}.

(** Modelled from the spec: a resource of section 3, metadata with a spec
    and a status that may be absent. *)
Record Resource : Type := {
  Meta : Metadata;
  Spec : Payload;
  Status : option Payload
}.

(** Modelled from the spec: the error taxonomy of sections 4.1 and 7, as
    far as the store raises it. *)
Inductive Error : Type :=
| NotFound
| AlreadyExists
| VersionConflict
| Forbidden
| Conflict.

Definition set_Version (v : N) (r : Resource) : Resource :=
  {| Meta := {| ID := ID (Meta r); Version := v; Phase_ := Phase_ (Meta r);
                Owner := Owner (Meta r); Finalizers := Finalizers (Meta r) |};
     Spec := Spec r; Status := Status r |}.

Definition set_Phase (p : Phase) (r : Resource) : Resource :=
  {| Meta := {| ID := ID (Meta r); Version := Version (Meta r); Phase_ := p;
                Owner := Owner (Meta r); Finalizers := Finalizers (Meta r) |};
     Spec := Spec r; Status := Status r |}.

Definition set_Finalizers (fs : gset string) (r : Resource) : Resource :=
  {| Meta := {| ID := ID (Meta r); Version := Version (Meta r);
                Phase_ := Phase_ (Meta r); Owner := Owner (Meta r);
                Finalizers := fs |};
     Spec := Spec r; Status := Status r |}.

(** The payloads of [r'] under the metadata of [r]: a mutation function
    reaches the spec and the status only. *)
Definition with_payload_of (r' r : Resource) : Resource :=
  {| Meta := Meta r; Spec := Spec r'; Status := Status r' |}.

Definition bump (r : Resource) : Resource :=
  set_Version (Version (Meta r) + 1)%N r.

(** Modelled from the spec: [Get(id) -> (Resource, found)] of section 4.1,
    a point lookup in a map keyed by (namespace, type, id). *)
Definition Get (s : gmap ResourceID Resource) (id : ResourceID) : option Resource :=
  s !! id.

(** Modelled from the spec: [Create(resource)] of section 4.1 and the
    lifecycle of section 3: fails with AlreadyExists; a created resource is
    Running, has no status yet and is owned by its writer. *)
Definition Create (s : gmap ResourceID Resource) (caller : string) (r : Resource)
  : gmap ResourceID Resource * (Error + Resource) :=
  let id := ID (Meta r) in
  match s !! id with
  | Some _ => (s, inl AlreadyExists)
  | None =>
      let r0 :=
        {| Meta := {| ID := id; Version := 1; Phase_ := Running;
                      Owner := Some caller; Finalizers := Finalizers (Meta r) |};
           Spec := Spec r; Status := None |} in
      (<[id := r0]> s, inr r0)
  end.

(** Modelled from the spec: [Update(id, expectedVersion, mutateFn)] of
    section 4.1: NotFound when absent, VersionConflict when the expected
    version is stale, Forbidden when the spec changes and the caller is not
    the owner; by section 3 a resource that is Tearing Down accepts no spec
    change, and every successful mutation bumps the version. *)
Definition Update (s : gmap ResourceID Resource) (caller : string)
    (id : ResourceID) (expectedVersion : N) (mutateFn : Resource -> Resource)
  : gmap ResourceID Resource * (Error + Resource) :=
  match s !! id with
  | None => (s, inl NotFound)
  | Some r =>
      if bool_decide (Version (Meta r) = expectedVersion) then
        let r' := with_payload_of (mutateFn r) r in
        if bool_decide (Spec r' = Spec r) then
          (<[id := bump r']> s, inr (bump r'))
        else if bool_decide (Owner (Meta r) = Some caller) then
          if bool_decide (Phase_ (Meta r) = TearingDown) then (s, inl Conflict)
          else (<[id := bump r']> s, inr (bump r'))
        else (s, inl Forbidden)
      else (s, inl VersionConflict)
  end.

(** Modelled from the spec: [MarkForDestroy(id)] of section 4.1: fails with
    NotFound, sets Phase to Tearing Down, idempotent. *)
Definition MarkForDestroy (s : gmap ResourceID Resource) (id : ResourceID)
  : gmap ResourceID Resource * (Error + Resource) :=
  match s !! id with
  | None => (s, inl NotFound)
  | Some r =>
      if bool_decide (Phase_ (Meta r) = TearingDown) then (s, inr r)
      else
        let r' := bump (set_Phase TearingDown r) in
        (<[id := r']> s, inr r')
  end.

(** Modelled from the spec: [AddFinalizer(id, token)] of section 4.1,
    idempotent. *)
Definition AddFinalizer (s : gmap ResourceID Resource) (id : ResourceID)
    (token : string) : gmap ResourceID Resource * (Error + Resource) :=
  match s !! id with
  | None => (s, inl NotFound)
  | Some r =>
      if bool_decide (token ∈ Finalizers (Meta r)) then (s, inr r)
      else
        let r' := bump (set_Finalizers (Finalizers (Meta r) ∪ {[token]}) r) in
        (<[id := r']> s, inr r')
  end.

(** Modelled from the spec: [RemoveFinalizer(id, token)] of section 4.1:
    idempotent; removing the last finalizer while Tearing Down triggers the
    physical destroy. *)
Definition RemoveFinalizer (s : gmap ResourceID Resource) (id : ResourceID)
    (token : string) : gmap ResourceID Resource * (Error + Resource) :=
  match s !! id with
  | None => (s, inl NotFound)
  | Some r =>
      if bool_decide (token ∈ Finalizers (Meta r)) then
        let r' := bump (set_Finalizers (Finalizers (Meta r) ∖ {[token]}) r) in
        if bool_decide (Phase_ (Meta r') = TearingDown ∧ Finalizers (Meta r') = ∅)
        then (delete id s, inr r')
        else (<[id := r']> s, inr r')
      else (s, inr r)
  end.

(** Modelled from the spec: [Destroy(id, expectedVersion)] of section 4.1:
    fails with Conflict when Finalizers is non-empty or Phase is not
    Tearing Down; NotFound and VersionConflict as for Update. *)
Definition Destroy (s : gmap ResourceID Resource) (id : ResourceID)
    (expectedVersion : N) : gmap ResourceID Resource * (Error + Resource) :=
  match s !! id with
  | None => (s, inl NotFound)
  | Some r =>
      if bool_decide (Finalizers (Meta r) = ∅ ∧ Phase_ (Meta r) = TearingDown) then
        if bool_decide (Version (Meta r) = expectedVersion) then
          (delete id s, inr r)
        else (s, inl VersionConflict)
      else (s, inl Conflict)
  end.

(** Modelled from the spec: the mutating calls of section 4.1. *)
Inductive Op : Type :=
| OpCreate (caller : string) (r : Resource)
| OpUpdate (caller : string) (id : ResourceID) (expectedVersion : N)
    (mutateFn : Resource -> Resource)
| OpMarkForDestroy (id : ResourceID)
| OpAddFinalizer (id : ResourceID) (token : string)
| OpRemoveFinalizer (id : ResourceID) (token : string)
| OpDestroy (id : ResourceID) (expectedVersion : N).

Definition exec (op : Op) (s : gmap ResourceID Resource)
  : gmap ResourceID Resource * (Error + Resource) :=
  match op with
  | OpCreate caller r => Create s caller r
  | OpUpdate caller id v f => Update s caller id v f
  | OpMarkForDestroy id => MarkForDestroy s id
  | OpAddFinalizer id token => AddFinalizer s id token
  | OpRemoveFinalizer id token => RemoveFinalizer s id token
  | OpDestroy id v => Destroy s id v
  end.

(** [n] attempts of the same Destroy in a row: the store after them and
    what each attempt answered. *)
Fixpoint DestroyAttempts (n : nat) (s : gmap ResourceID Resource)
    (id : ResourceID) (expectedVersion : N)
  : gmap ResourceID Resource * list (Error + Resource) :=
  match n with
  | O => (s, [])
  | S n' =>
      let '(s1, res) := Destroy s id expectedVersion in
      let '(s2, rest) := DestroyAttempts n' s1 id expectedVersion in
      (s2, res :: rest)
  end.

End store.

(** ** Package [api]: the test of the suite *)

Module integration.

Import golang v1alpha1 machineapi endpoint.

(** How a run of a test method ends. [Finished] carries whether an
    [Assert()] has marked the test as failed, and the client as the test
    leaves it. *)
Inductive test_end (C : Type) : Type :=
| Skipped
| Finished (failed : bool) (suite : C)
| Stopped      (* Require() stopped the test *)
| Panicked.
Arguments Skipped {C}.
Arguments Finished {C} failed suite.
Arguments Stopped {C}.
Arguments Panicked {C}.

(** suite.Assert().NoError(err): marks the test as failed on an error and
    lets it go on. *)
Definition Assert_NoError (failed : bool) (err : option error) : bool :=
  match err with
  | Some _ => true
  | None => failed
  end.

Definition invalidURL : string := "https://127.0.0.1:40443".

Section WithTalos.
Context `{TalosAPI}.

(** An error of the retry loop that is its timeout. *)
Definition timed_out (err : option error) : bool :=
  match err with
  | Some TimeoutError => true
  | _ => false
  end.

(** [short] is testing.Short(); [nodeInternalIP] is what
    RandomDiscoveredNodeInternalIP picked; [outage] and [reverted] are what
    the Clientset answers at the polls of the first and of the deferred
    wait, [ticks1] and [ticks2] the retry ticks each of them gets. The
    deferred function runs once the body is through; it is registered only
    after the first update has returned.

    Every call of the suite goes out under [suite.ctx], which SetupTest
    bounds by 5 minutes. No clock is kept here: [ctxDone1] and [ctxDone2]
    say whether that context is over when the first and when the deferred
    update start. On a context that is over ReadConfigFromNode fails, and
    Require stops the test. A first wait that ran into its own 5 minutes,
    which began after SetupTest, has outlived the context. For the polls
    the end of the context shows in what the Clientset answers. *)
Definition TestUpdateControlPlaneEndpoint (short : bool) (suite : Client)
    (nodeInternalIP : string) (ctxDone1 : bool)
    (outage : nat -> api.Clientset) (ticks1 : nat) (ctxDone2 : bool)
    (reverted : nat -> api.Clientset) (ticks2 : nat)
  : test_end Client :=
  if short then Skipped
  else if ctxDone1 then Stopped
  else
    match updateEndpointURL suite nodeInternalIP invalidURL with
    | FailNow => Stopped
    | Panic => Panicked
    | Returned (oldURL, suite) =>
        (* expect node status to become NotReady *)
        let err :=
          api.waitForNodeReadinessStatus outage ticks1 nodeInternalIP
            api.nodeNotReady in
        let failed := Assert_NoError false err in
        (* deferred: revert the endpoint URL back to the original one *)
        if ctxDone2 || timed_out err then Stopped
        else
          match updateEndpointURL suite nodeInternalIP oldURL with
          | FailNow => Stopped
          | Panic => Panicked
          | Returned (_, suite) =>
              (* expect node status to be Ready again *)
              let failed :=
                Assert_NoError failed
                  (api.waitForNodeReadinessStatus reverted ticks2 nodeInternalIP
                     api.nodeReady) in
              Finished failed suite
          end
    end.

End WithTalos.

End integration.

(** ** A small cluster to run the suite on *)

Module example.

Import golang v1alpha1 machineapi endpoint.

(** URLs kept as their text, no further fields. *)
Definition schema : Schema :=
  {| URL := string; ConfigRest := unit; ClusterRest := unit;
     ControlPlaneRest := unit |}.

Definition controlPlane : @ControlPlaneConfig schema :=
  {| Endpoint_ := Some 1%positive; ControlPlane_rest := tt : @ControlPlaneRest schema |}.

Definition config : @Config schema :=
  {| ClusterConfig_ :=
       Some {| ControlPlane := Some controlPlane;
               Cluster_rest := tt : @ClusterRest schema |};
     Config_rest := tt : @ConfigRest schema |}.

(** Each machine, found by its IP, keeps the endpoint URL of its
    configuration. *)
Definition talos : @TalosAPI schema :=
  {| Talos := gmap string string;
     url_Parse := fun s => inl (s : @URL schema);
     url_String := fun u => u;
     ReadConfigFromNode := fun t nodeIP =>
       match t !! nodeIP with
       | Some u =>
           inl (V1Alpha1 config,
                {[ 1%positive := {| Endpoint_URL := Some (u : @URL schema) |} ]})
       | None => inr (ApiError "no such node")
       end;
     Bytes := fun c mem =>
       match endpointURL c mem with
       | Some u => inl (String.list_byte_of_string u)
       | None => inr (Errorf "no endpoint")
       end;
     ApplyConfiguration := fun t nodeIP req =>
       inl (<[nodeIP := String.string_of_list_byte (Data req)]> t) |}.

Definition suite0 : @Client schema talos :=
  {| machines := {[ "10.0.0.2" := "https://10.0.0.1:6443" ]}; applied := [] |}.

Definition request (url : string) : string * ApplyConfigurationRequest :=
  ("10.0.0.2",
   {| Data := String.list_byte_of_string url;
      Mode := ApplyConfigurationRequest_NO_REBOOT |}).

(** The client after the endpoint was set to the unreachable URL, and
    after it was set back. *)
Definition suite1 : @Client schema talos :=
  {| machines := {[ "10.0.0.2" := "https://127.0.0.1:40443" ]};
     applied := [ request "https://127.0.0.1:40443" ] |}.

Definition suite2 : @Client schema talos :=
  {| machines := {[ "10.0.0.2" := "https://10.0.0.1:6443" ]};
     applied := [ request "https://127.0.0.1:40443";
                  request "https://10.0.0.1:6443" ] |}.

(** Kubernetes nodes for the readiness polls. *)
Definition node (name ip ready : string) : corev1.Node :=
  {| corev1.Name := name;
     corev1.Status :=
       {| corev1.Conditions :=
            [ {| corev1.cond_Type := "MemoryPressure"; corev1.cond_Status := "False" |};
              {| corev1.cond_Type := "Ready"; corev1.cond_Status := ready |} ];
          corev1.Addresses :=
            [ {| corev1.addr_Type := "Hostname"; corev1.addr_Address := name |};
              {| corev1.addr_Type := "InternalIP"; corev1.addr_Address := ip |} ] |} |}.

Definition clientset (ready : string) : api.Clientset :=
  {| api.Nodes_List :=
       inl {| corev1.Items := [ node "worker-1" "10.0.0.3" "True";
                                node "master-1" "10.0.0.2" ready ] |} |}.

(** The node is reported NotReady for the first two polls. *)
Definition cluster (k : nat) : api.Clientset :=
  if decide (k < 2) then clientset "False" else clientset "True".

Definition hosts_id : store.ResourceID := ("files", "EtcFileSpecs.files.talos.dev", "hosts").

Definition hosts : store.Resource :=
  {| store.Meta := {| store.ID := hosts_id; store.Version := 3;
                      store.Phase_ := store.TearingDown;
                      store.Owner := Some "files.EtcFileController";
                      store.Finalizers := {[ "writer" ]} |};
     store.Spec := "127.0.0.1 localhost";
     store.Status := None |}.

(** A listing in which the first node has no Ready condition and the
    second answers to the same IP. *)
Definition bare_node (name ip : string) : corev1.Node :=
  {| corev1.Name := name;
     corev1.Status :=
       {| corev1.Conditions :=
            [ {| corev1.cond_Type := "DiskPressure"; corev1.cond_Status := "False" |} ];
          corev1.Addresses :=
            [ {| corev1.addr_Type := "InternalIP"; corev1.addr_Address := ip |} ] |} |}.

Definition duplicated : api.Clientset :=
  {| api.Nodes_List :=
       inl {| corev1.Items := [ bare_node "stale" "10.0.0.2";
                                node "master-1" "10.0.0.2" "True" ] |} |}.

(** The node drops out of the listing at the second poll and is back, and
    Ready, from the third on. *)
Definition flapping (k : nat) : api.Clientset :=
  if decide (k = 0) then clientset "False"
  else if decide (k = 1) then
    {| api.Nodes_List := inl {| corev1.Items := [ node "worker-1" "10.0.0.3" "True" ] |} |}
  else clientset "True".

(** A machine whose configuration has no control plane section. *)
Definition headless : @TalosAPI schema :=
  {| Talos := unit;
     url_Parse := fun s => inl (s : @URL schema);
     url_String := fun u => u;
     ReadConfigFromNode := fun _ _ =>
       inl (V1Alpha1 {| ClusterConfig_ := Some {| ControlPlane := None;
                                                  Cluster_rest := tt : @ClusterRest schema |};
                        Config_rest := tt : @ConfigRest schema |},
            ∅);
     Bytes := fun _ _ => inl [];
     ApplyConfiguration := fun t _ _ => inl t |}.

(** The control plane endpoint as a resource, at version 7, and what an
    update of its URL stores. *)
Definition endpoint_id : store.ResourceID :=
  ("config", "ControlPlaneEndpoints.cluster.talos.dev", "endpoint").

Definition endpoint_at (version : N) (url : string) : store.Resource :=
  {| store.Meta := {| store.ID := endpoint_id; store.Version := version;
                      store.Phase_ := store.Running;
                      store.Owner := Some "config.Controller";
                      store.Finalizers := ∅ |};
     store.Spec := url;
     store.Status := None |}.

Definition set_url (url : string) (r : store.Resource) : store.Resource :=
  {| store.Meta := store.Meta r; store.Spec := url; store.Status := store.Status r |}.

End example.

(** * Properties *)

Section ForRange.
Import golang.
Context {A R : Type}.
Implicit Types (l : list A) (body : A -> option R).

Lemma for_range_None l body :
  for_range l body = None <-> forall x, x ∈ l -> body x = None.
Proof.
  induction l as [|y l IH]; simpl.
  - split; [intros _ x Hx; inversion Hx | done].
  - destruct (body y) eqn:Hy.
    + split; [done|]. intros Hall. rewrite Hall in Hy; [done | left].
    + rewrite IH. split.
      * intros Hall x Hx. apply elem_of_cons in Hx as [-> | Hx]; auto.
      * intros Hall x Hx. apply Hall. by right.
Qed.

(** The loop returns at the first element on which the body returns. *)
Lemma for_range_Some l body r :
  for_range l body = Some r <->
  exists pre x post, l = (pre ++ x :: post)%list /\ body x = Some r /\
                     forall y, y ∈ pre -> body y = None.
Proof.
  induction l as [|y l IH]; simpl.
  - split; [done|]. intros (pre & x & post & Hl & _). by destruct pre.
  - destruct (body y) eqn:Hy.
    + split.
      * intros [= ->]. exists [], y, l. split_and!; [done | done |].
        intros z Hz. inversion Hz.
      * intros (pre & x & post & Hl & Hx & Hpre). destruct pre as [|p pre].
        -- simpl in Hl. injection Hl as -> ->. congruence.
        -- simpl in Hl. injection Hl as -> ->.
           rewrite Hpre in Hy; [done | left].
    + rewrite IH. split.
      * intros (pre & x & post & -> & Hx & Hpre).
        exists (y :: pre), x, post. split_and!; [done | done |].
        intros z Hz. apply elem_of_cons in Hz as [-> | Hz]; auto.
      * intros (pre & x & post & Hl & Hx & Hpre). destruct pre as [|p pre].
        -- simpl in Hl. injection Hl as -> ->. congruence.
        -- simpl in Hl. injection Hl as -> ->.
           exists pre, x, post. split_and!; [done | done |].
           intros z Hz. apply Hpre. by right.
Qed.

Lemma for_range_Some_elem l body r :
  for_range l body = Some r -> exists x, x ∈ l /\ body x = Some r.
Proof.
  intros (pre & x & post & -> & Hx & _)%for_range_Some.
  exists x. split; [|done]. apply elem_of_app. right. left.
Qed.

End ForRange.

(** ** The EtcFileSpec resource type *)

(** C3: whatever metadata and spec it is given, [ResourceDefinition] returns
    the same registration data: Type "EtcFileSpecs.files.talos.dev",
    DefaultNamespace [NamespaceName], and allocated Aliases and PrintColumns
    of length zero. *)
Theorem ResourceDefinition_constant (NamespaceName : resource.Namespace)
    (m1 m2 : files.EtcFileSpecMD) (md1 md2 : resource.Metadata)
    (s1 s2 : files.EtcFileSpecSpec) :
  let d := files.ResourceDefinition NamespaceName m1 md1 s1 in
  meta.Type_ d = "EtcFileSpecs.files.talos.dev" /\
  meta.DefaultNamespace d = NamespaceName /\
  meta.Aliases d = golang.make_slice [] /\
  meta.PrintColumns d = golang.make_slice [] /\
  golang.len (meta.Aliases d) = 0 /\
  golang.len (meta.PrintColumns d) = 0 /\
  files.ResourceDefinition NamespaceName m2 md2 s2 = d.
Proof. by repeat split. Qed.

(** ** Finding the node and its readiness *)

Section Nodes.
Import golang api.
Implicit Types (suite : Clientset) (node : corev1.Node).

(** The body of the inner loop answers on an address of type InternalIP
    that equals the IP looked for, and on no other. *)
Lemma address_match (item r : corev1.Node) (internalIP : string)
    (address : corev1.NodeAddress) :
  (if bool_decide (corev1.addr_Type address = corev1.NodeInternalIP) then
     if bool_decide (corev1.addr_Address address = internalIP) then Some item
     else None
   else None) = Some r <->
  r = item /\ corev1.addr_Type address = corev1.NodeInternalIP /\
  corev1.addr_Address address = internalIP.
Proof.
  repeat case_bool_decide;
    (split; [intros ? | intros (? & ? & ?)]; simplify_eq; done).
Qed.

Lemma getNodeByInternalIP_found suite nodeList (internalIP : string) node :
  Nodes_List suite = inl nodeList ->
  getNodeByInternalIP suite internalIP = (Some node, None) ->
  node ∈ corev1.Items nodeList /\
  exists address, address ∈ corev1.Addresses (corev1.Status node) /\
    corev1.addr_Type address = corev1.NodeInternalIP /\
    corev1.addr_Address address = internalIP.
Proof.
  unfold getNodeByInternalIP. intros ->.
  destruct (for_range _ _) as [item|] eqn:Hloop; [|done].
  intros [= ->].
  apply for_range_Some_elem in Hloop as (item & Hitem & Hinner).
  apply for_range_Some_elem in Hinner as (address & Haddr & Hbody).
  apply address_match in Hbody as (-> & Hty & Hip).
  split; [done|]. by exists address.
Qed.

Lemma getNodeByInternalIP_not_found suite nodeList (internalIP : string) :
  Nodes_List suite = inl nodeList ->
  getNodeByInternalIP suite internalIP
    = (None, Some (Errorf (not_found_msg internalIP))) <->
  forall node address,
    node ∈ corev1.Items nodeList ->
    address ∈ corev1.Addresses (corev1.Status node) ->
    corev1.addr_Type address = corev1.NodeInternalIP ->
    corev1.addr_Address address <> internalIP.
Proof.
  unfold getNodeByInternalIP. intros ->.
  destruct (for_range _ _) as [item|] eqn:Hloop.
  - split; [done|]. intros Hnone. exfalso.
    apply for_range_Some_elem in Hloop as (item' & Hitem & Hinner).
    apply for_range_Some_elem in Hinner as (address & Haddr & Hbody).
    apply address_match in Hbody as (-> & Hty & Hip).
    by apply (Hnone item' address).
  - split; [|done]. intros _ node address Hnode Haddr Hty Hip.
    rewrite for_range_None in Hloop. specialize (Hloop node Hnode).
    rewrite for_range_None in Hloop. specialize (Hloop address Haddr).
    rewrite bool_decide_eq_true_2 in Hloop by done.
    by rewrite bool_decide_eq_true_2 in Hloop.
Qed.

(** A nil error always comes with a node. *)
Lemma getNodeByInternalIP_nil_err suite (internalIP : string) :
  getNodeByInternalIP suite internalIP <> (None, None).
Proof.
  unfold getNodeByInternalIP.
  destruct (Nodes_List suite); [|done]. by destruct (for_range _ _).
Qed.

(** With a node list at hand the call ends in one of two ways. *)
Lemma getNodeByInternalIP_cases suite nodeList (internalIP : string) :
  Nodes_List suite = inl nodeList ->
  (exists node, getNodeByInternalIP suite internalIP = (Some node, None)) \/
  getNodeByInternalIP suite internalIP
    = (None, Some (Errorf (not_found_msg internalIP))).
Proof.
  unfold getNodeByInternalIP. intros ->.
  destruct (for_range _ _) as [item|]; [left; by exists item | by right].
Qed.

(** C8: over the listed nodes, [getNodeByInternalIP] returns a listed node
    with an address of type InternalIP equal to the IP whenever there is
    one, and the error "node with internal IP <ip> not found", with no
    node, exactly when there is none. *)
Theorem getNodeByInternalIP_spec suite nodeList (internalIP : string) :
  Nodes_List suite = inl nodeList ->
  let has_ip node :=
    exists address, address ∈ corev1.Addresses (corev1.Status node) /\
      corev1.addr_Type address = corev1.NodeInternalIP /\
      corev1.addr_Address address = internalIP in
  ((exists node, node ∈ corev1.Items nodeList /\ has_ip node) ->
   exists node, getNodeByInternalIP suite internalIP = (Some node, None) /\
     node ∈ corev1.Items nodeList /\ has_ip node) /\
  (getNodeByInternalIP suite internalIP
     = (None, Some (Errorf ("node with internal IP " ++ internalIP ++ " not found")))
   <-> ~ exists node, node ∈ corev1.Items nodeList /\ has_ip node).
Proof.
  intros Hlist has_ip. split.
  - intros (node & Hnode & address & Haddr & Hty & Hip).
    destruct (getNodeByInternalIP_cases suite nodeList internalIP Hlist)
      as [[found Hfound] | Hnone].
    + exists found. split; [done|].
      by apply (getNodeByInternalIP_found suite nodeList).
    + exfalso.
      pose proof (proj1 (getNodeByInternalIP_not_found suite nodeList
                           internalIP Hlist) Hnone) as Hno.
      by apply (Hno node address).
  - change ("node with internal IP " ++ internalIP ++ " not found")
      with (not_found_msg internalIP).
    rewrite (getNodeByInternalIP_not_found suite nodeList internalIP Hlist).
    split.
    + intros Hnone (node & Hnode & address & Haddr & Hty & Hip).
      by apply (Hnone node address).
    + intros Hnone node address Hnode Haddr Hty Hip. apply Hnone.
      exists node. split; [done|]. by exists address.
Qed.

Lemma getNodeByInternalIP_spec_witness :
  exists node,
    getNodeByInternalIP (example.clientset "True") "10.0.0.2" = (Some node, None) /\
    corev1.Name node = "master-1".
Proof.
  destruct (getNodeByInternalIP_spec (example.clientset "True")
              {| corev1.Items := [ example.node "worker-1" "10.0.0.3" "True";
                                   example.node "master-1" "10.0.0.2" "True" ] |}
              "10.0.0.2" eq_refl) as [Hsome _].
  destruct Hsome as (node & Hres & _).
  - exists (example.node "master-1" "10.0.0.2" "True"). split.
    + right. left.
    + exists {| corev1.addr_Type := "InternalIP"; corev1.addr_Address := "10.0.0.2" |}.
      split; [right; left | done].
  - exists node. split; [done|].
    vm_compute in Hres. by injection Hres as <-.
Defined.

(** The readiness loop answers on a condition of type Ready only. *)
Lemma condition_match (condition : corev1.NodeCondition)
    (status : corev1.ConditionStatus) :
  (if bool_decide (corev1.cond_Type condition = corev1.NodeReady) then
     Some (corev1.cond_Status condition)
   else None) = Some status <->
  corev1.cond_Type condition = corev1.NodeReady /\
  corev1.cond_Status condition = status.
Proof.
  case_bool_decide; (split; [intros ? | intros (? & ?)]; simplify_eq; done).
Qed.

Lemma condition_no_match (condition : corev1.NodeCondition) :
  (if bool_decide (corev1.cond_Type condition = corev1.NodeReady) then
     Some (corev1.cond_Status condition)
   else None) = None <->
  corev1.cond_Type condition <> corev1.NodeReady.
Proof. case_bool_decide; split; done. Qed.

(** C9: [getNodeReadinessStatus] returns the Status of the first condition
    of type Ready of the matched node; when the node lookup fails, or the
    node has no condition of type Ready, it returns the empty status with
    an error; a status returned with a nil error is always the status of a
    Ready condition of the matched node. *)
Theorem getNodeReadinessStatus_spec suite (nodeInternalIP : string) :
  (forall node pre condition post,
     getNodeByInternalIP suite nodeInternalIP = (Some node, None) ->
     corev1.Conditions (corev1.Status node) = (pre ++ condition :: post)%list ->
     corev1.cond_Type condition = corev1.NodeReady ->
     (forall c, c ∈ pre -> corev1.cond_Type c <> corev1.NodeReady) ->
     getNodeReadinessStatus suite nodeInternalIP
       = (corev1.cond_Status condition, None)) /\
  (forall found err,
     getNodeByInternalIP suite nodeInternalIP = (found, Some err) ->
     getNodeReadinessStatus suite nodeInternalIP = ("", Some err)) /\
  (forall node,
     getNodeByInternalIP suite nodeInternalIP = (Some node, None) ->
     (forall c, c ∈ corev1.Conditions (corev1.Status node) ->
                corev1.cond_Type c <> corev1.NodeReady) ->
     getNodeReadinessStatus suite nodeInternalIP
       = ("", Some (Errorf ("node " ++ nodeInternalIP ++ " has no readiness condition")))) /\
  (forall status,
     getNodeReadinessStatus suite nodeInternalIP = (status, None) ->
     exists node condition,
       getNodeByInternalIP suite nodeInternalIP = (Some node, None) /\
       condition ∈ corev1.Conditions (corev1.Status node) /\
       corev1.cond_Type condition = corev1.NodeReady /\
       corev1.cond_Status condition = status).
Proof.
  unfold getNodeReadinessStatus. split_and!.
  - intros node pre condition post -> Hconds Hty Hpre.
    assert (for_range (corev1.Conditions (corev1.Status node))
              (fun condition =>
                 if bool_decide (corev1.cond_Type condition = corev1.NodeReady)
                 then Some (corev1.cond_Status condition) else None)
            = Some (corev1.cond_Status condition)) as ->; [|done].
    apply for_range_Some. exists pre, condition, post. split_and!; [done| |].
    + by apply condition_match.
    + intros c Hc. apply condition_no_match. by apply Hpre.
  - intros found err ->. by destruct found.
  - intros node -> Hnone.
    assert (for_range (corev1.Conditions (corev1.Status node))
              (fun condition =>
                 if bool_decide (corev1.cond_Type condition = corev1.NodeReady)
                 then Some (corev1.cond_Status condition) else None)
            = None) as ->; [|done].
    apply for_range_None. intros c Hc. apply condition_no_match. by apply Hnone.
  - intros status.
    pose proof (getNodeByInternalIP_nil_err suite nodeInternalIP) as Hnil.
    destruct (getNodeByInternalIP suite nodeInternalIP) as [[node|] [err|]];
      try done.
    destruct (for_range _ _) as [st|] eqn:Hloop; [|done].
    intros [= ->].
    apply for_range_Some_elem in Hloop as (condition & Hc & Hbody).
    apply condition_match in Hbody as [Hty Hst].
    by exists node, condition.
Qed.

Lemma getNodeReadinessStatus_spec_witness :
  getNodeReadinessStatus (example.clientset "False") "10.0.0.2" = ("False", None).
Proof.
  destruct (getNodeReadinessStatus_spec (example.clientset "False") "10.0.0.2")
    as [Hfirst _].
  apply (Hfirst (example.node "master-1" "10.0.0.2" "False")
           [ {| corev1.cond_Type := "MemoryPressure"; corev1.cond_Status := "False" |} ]
           {| corev1.cond_Type := "Ready"; corev1.cond_Status := "False" |} []).
  - reflexivity.
  - reflexivity.
  - reflexivity.
  - intros c Hc. apply list_elem_of_singleton in Hc as ->. done.
Defined.

End Nodes.

(** ** Waiting for a readiness status *)

Section Waiting.
Import golang api.

(** A nil result of the loop comes from a call of [f] that returned nil,
    made before the ticks ran out. *)
Lemma Retry_nil ticks (f : nat -> option error) attempt :
  Retry ticks f attempt = None ->
  exists k, attempt <= k <= attempt + ticks /\ f k = None /\
            forall j, attempt <= j < k -> exists e, f j = Some (ExpectedError e).
Proof.
  revert attempt. induction ticks as [|ticks IH]; intros attempt; simpl.
  - destruct (f attempt) as [[]|] eqn:Hf; try done.
    intros _. exists attempt. split_and!; [lia | lia | done | lia].
  - destruct (f attempt) as [[| |e| |]|] eqn:Hf; try done.
    + intros (k & Hk & Hnil & Hbefore)%IH. exists k. split_and!; [lia | lia | done |].
      intros j Hj. destruct (decide (j = attempt)) as [-> | Hne].
      * by exists e.
      * apply Hbefore. lia.
    + intros _. exists attempt. split_and!; [lia | lia | done | lia].
Qed.

(** When every call within the deadline asks for a retry, the loop ends
    with the timeout. *)
Lemma Retry_timeout ticks (f : nat -> option error) attempt :
  (forall k, attempt <= k <= attempt + ticks ->
             exists e, f k = Some (ExpectedError e)) ->
  Retry ticks f attempt = Some TimeoutError.
Proof.
  revert attempt. induction ticks as [|ticks IH]; intros attempt Hall; simpl.
  - destruct (Hall attempt) as [e ->]; [lia | done].
  - destruct (Hall attempt) as [e ->]; [lia |].
    apply IH. intros k Hk. apply Hall. lia.
Qed.

Lemma pollReadiness_nil suite (nodeInternalIP : string)
    (checkFn : corev1.ConditionStatus -> bool) :
  pollReadiness suite nodeInternalIP checkFn = None <->
  exists status, getNodeReadinessStatus suite nodeInternalIP = (status, None) /\
                 checkFn status = true.
Proof.
  unfold pollReadiness.
  destruct (getNodeReadinessStatus suite nodeInternalIP) as [status [err|]].
  - split; [done | by intros (? & [= _ ?] & _)].
  - destruct (checkFn status) eqn:Hcheck; simpl.
    + split; [by exists status | done].
    + split; [done | intros (? & [= <-] & ?); congruence].
Qed.

Lemma pollReadiness_retry suite (nodeInternalIP : string)
    (checkFn : corev1.ConditionStatus -> bool) status :
  getNodeReadinessStatus suite nodeInternalIP = (status, None) ->
  checkFn status = false ->
  exists e, pollReadiness suite nodeInternalIP checkFn = Some (ExpectedError e).
Proof.
  unfold pollReadiness. intros -> ->. simpl. by eexists.
Qed.

(** C6: [waitForNodeReadinessStatus] returns nil only if some poll within
    the deadline saw a readiness status on which [checkFn] holds; if every
    poll up to the deadline sees a status on which [checkFn] fails, it
    returns a non-nil error (the timeout). *)
Theorem waitForNodeReadinessStatus_spec (cluster : nat -> Clientset) (ticks : nat)
    (nodeInternalIP : string) (checkFn : corev1.ConditionStatus -> bool) :
  (waitForNodeReadinessStatus cluster ticks nodeInternalIP checkFn = None ->
   exists k status, k <= ticks /\
     getNodeReadinessStatus (cluster k) nodeInternalIP = (status, None) /\
     checkFn status = true) /\
  ((forall k, k <= ticks ->
      exists status,
        getNodeReadinessStatus (cluster k) nodeInternalIP = (status, None) /\
        checkFn status = false) ->
   waitForNodeReadinessStatus cluster ticks nodeInternalIP checkFn
     = Some TimeoutError /\
   waitForNodeReadinessStatus cluster ticks nodeInternalIP checkFn <> None).
Proof.
  unfold waitForNodeReadinessStatus. split.
  - intros (k & Hk & Hnil & _)%Retry_nil.
    apply pollReadiness_nil in Hnil as (status & Hst & Hcheck).
    exists k, status. split_and!; [lia | done | done].
  - intros Hall.
    assert (Retry ticks
              (fun attempt => pollReadiness (cluster attempt) nodeInternalIP checkFn) 0
            = Some TimeoutError) as ->; [|done].
    apply Retry_timeout. intros k Hk.
    destruct (Hall k) as (status & Hst & Hcheck); [lia|].
    by apply (pollReadiness_retry _ _ _ status).
Qed.

Lemma waitForNodeReadinessStatus_spec_witness :
  (exists k status, k <= 5 /\
     getNodeReadinessStatus (example.cluster k) "10.0.0.2" = (status, None) /\
     nodeReady status = true) /\
  waitForNodeReadinessStatus example.cluster 1 "10.0.0.2" nodeReady <> None.
Proof.
  split.
  - apply (waitForNodeReadinessStatus_spec example.cluster 5 "10.0.0.2" nodeReady).
    reflexivity.
  - apply (waitForNodeReadinessStatus_spec example.cluster 1 "10.0.0.2" nodeReady).
    intros k Hk. exists "False".
    destruct k as [|[|k]]; [by vm_compute | by vm_compute | lia].
Defined.

End Waiting.

(** ** Updating the control plane endpoint *)

Section Endpoint.
Import golang v1alpha1 machineapi endpoint.
Context `{TalosAPI}.
Implicit Types (suite : Client) (c : Config) (mem : gmap loc Endpoint).

(** What a call that returns has done, step by step. *)
Lemma updateEndpointURL_Returned suite (nodeIP newURL oldURL : string) suite' :
  updateEndpointURL suite nodeIP newURL = Returned (oldURL, suite') ->
  exists c mem newEndpointURL l u bytes m,
    ReadConfigFromNode (machines suite) nodeIP = inl (V1Alpha1 c, mem) /\
    url_Parse newURL = inl newEndpointURL /\
    endpointPtr c = Some l /\
    mem !! l = Some {| Endpoint_URL := Some u |} /\
    oldURL = url_String u /\
    Bytes c (<[l := {| Endpoint_URL := Some newEndpointURL |}]> mem) = inl bytes /\
    ApplyConfiguration (machines suite) nodeIP
      {| Data := bytes; Mode := ApplyConfigurationRequest_NO_REBOOT |} = inl m /\
    suite' = {| machines := m;
                applied := applied suite ++
                  [(nodeIP, {| Data := bytes;
                               Mode := ApplyConfigurationRequest_NO_REBOOT |})] |}.
Proof.
  unfold updateEndpointURL, Client_ApplyConfiguration, endpointPtr.
  destruct (ReadConfigFromNode (machines suite) nodeIP)
    as [[[c|] mem]|] eqn:Hread; simpl; try done.
  destruct (url_Parse newURL) as [newEndpointURL|] eqn:Hparse; simpl; [|done].
  destruct (ClusterConfig_ c) as [cluster|] eqn:Hcluster; simpl; [|done].
  destruct (ControlPlane cluster) as [controlPlane|] eqn:Hcp; simpl; [|done].
  destruct (Endpoint_ controlPlane) as [l|] eqn:Hptr; simpl; [|done].
  destruct (mem !! l) as [[[u|]]|] eqn:Hcell; simpl; try done.
  destruct (Bytes c _) as [bytes|] eqn:Hbytes; simpl; [|done].
  destruct (ApplyConfiguration _ _ _) as [m|] eqn:Happly; simpl; [|done].
  intros [= <- <-].
  exists c, mem, newEndpointURL, l, u, bytes, m. split_and!; try done.
  rewrite Hcluster. simpl. by rewrite Hcp.
Qed.

(** The URL of the endpoint after the write through the pointer. *)
Lemma endpointURL_insert c mem l (u : URL) :
  endpointPtr c = Some l ->
  endpointURL c (<[l := {| Endpoint_URL := Some u |}]> mem) = Some u.
Proof.
  unfold endpointURL. intros ->. simpl. by rewrite lookup_insert_eq.
Qed.

(** C5: the configuration that [updateEndpointURL] sends to the node is
    the configuration it read, with the same fields throughout, and a
    memory that differs from the one read only in the URL of the Endpoint
    struct of ClusterConfig.ControlPlane; that URL is the parsed new URL. *)
Theorem updateEndpointURL_frame suite (nodeIP newURL oldURL : string) suite' :
  updateEndpointURL suite nodeIP newURL = Returned (oldURL, suite') ->
  exists c mem mem' l newEndpointURL bytes,
    ReadConfigFromNode (machines suite) nodeIP = inl (V1Alpha1 c, mem) /\
    applied suite' = (applied suite ++
      [(nodeIP, {| Data := bytes; Mode := ApplyConfigurationRequest_NO_REBOOT |})])%list /\
    Bytes c mem' = inl bytes /\
    endpointPtr c = Some l /\
    url_Parse newURL = inl newEndpointURL /\
    mem' !! l = Some {| Endpoint_URL := Some newEndpointURL |} /\
    endpointURL c mem' = Some newEndpointURL /\
    (forall l', l' <> l -> mem' !! l' = mem !! l') /\
    dom mem' = dom mem.
Proof.
  intros (c & mem & newEndpointURL & l & u & bytes & m & Hread & Hparse & Hptr
          & Hcell & _ & Hbytes & _ & ->)%updateEndpointURL_Returned.
  exists c, mem, (<[l := {| Endpoint_URL := Some newEndpointURL |}]> mem), l,
    newEndpointURL, bytes.
  split_and!; try done.
  - by rewrite lookup_insert_eq.
  - by apply endpointURL_insert.
  - intros l' Hne. by rewrite lookup_insert_ne.
  - apply dom_insert_lookup_L. by eexists.
Qed.


End Endpoint.

Section EndpointExamples.
Import golang v1alpha1 machineapi endpoint.

(** The suite run on the small cluster: the first update returns the URL
    the configuration held, the second puts it back. *)
Example updateEndpointURL_first :
  @updateEndpointURL example.schema example.talos example.suite0
    "10.0.0.2" "https://127.0.0.1:40443"
  = Returned ("https://10.0.0.1:6443", example.suite1).
Proof. vm_compute. reflexivity. Qed.

Example updateEndpointURL_second :
  @updateEndpointURL example.schema example.talos example.suite1
    "10.0.0.2" "https://10.0.0.1:6443"
  = Returned ("https://127.0.0.1:40443", example.suite2).
Proof. vm_compute. reflexivity. Qed.

Lemma updateEndpointURL_frame_witness :
  exists bytes,
    @applied example.schema example.talos example.suite1
    = [("10.0.0.2", {| Data := bytes; Mode := ApplyConfigurationRequest_NO_REBOOT |})].
Proof.
  destruct (@updateEndpointURL_frame example.schema example.talos example.suite0
              "10.0.0.2" "https://127.0.0.1:40443" "https://10.0.0.1:6443"
              example.suite1)
    as (c & mem & mem' & l & newEndpointURL & bytes & _ & Happlied & _).
  - vm_compute. reflexivity.
  - exists bytes. exact Happlied.
Defined.


End EndpointExamples.

(** ** The resource store: versions and teardown *)

Section Store.
Import store.
Implicit Types (s : gmap ResourceID Resource) (r : Resource) (id : ResourceID).

Lemma Version_bump r : Version (Meta (bump r)) = (Version (Meta r) + 1)%N.
Proof. done. Qed.

(** An update with a version other than the stored one is refused, and
    nothing is written. *)
Lemma Update_stale s r (caller : string) id (v : N) (f : Resource -> Resource) :
  s !! id = Some r ->
  Version (Meta r) <> v ->
  Update s caller id v f = (s, inl VersionConflict).
Proof.
  intros Hr Hv. unfold Update. rewrite Hr.
  by rewrite bool_decide_eq_false_2.
Qed.

(** What a successful update has written. *)
Lemma Update_ok s (caller : string) id (v : N) (f : Resource -> Resource) s' r' :
  Update s caller id v f = (s', inr r') ->
  exists r, s !! id = Some r /\ Version (Meta r) = v /\
            r' = bump (with_payload_of (f r) r) /\ s' = <[id := r']> s.
Proof.
  unfold Update. destruct (s !! id) as [r|] eqn:Hr; [|done].
  repeat case_bool_decide; try done; intros [= <- <-]; by exists r.
Qed.

(** C1: a successful Update returns a version strictly above the prior one
    (the prior one plus one), and an Update that then passes the prior
    version as its expected version fails with VersionConflict, whoever
    calls it and whatever it would write. *)
Theorem Update_bumps_version s (caller : string) id (v : N)
    (f : Resource -> Resource) s' r' :
  Update s caller id v f = (s', inr r') ->
  exists r,
    s !! id = Some r /\
    Version (Meta r) = v /\
    (Version (Meta r) < Version (Meta r'))%N /\
    Version (Meta r') = (v + 1)%N /\
    s' !! id = Some r' /\
    forall (caller' : string) (f' : Resource -> Resource),
      Update s' caller' id v f' = (s', inl VersionConflict).
Proof.
  intros (r & Hr & Hv & -> & ->)%Update_ok.
  exists r. rewrite Version_bump. simpl. split_and!; try done.
  - lia.
  - by rewrite Hv.
  - by rewrite lookup_insert_eq.
  - intros caller' f'. apply (Update_stale _ (bump (with_payload_of (f r) r))).
    + by rewrite lookup_insert_eq.
    + rewrite Version_bump. simpl. lia.
Qed.

Lemma Update_bumps_version_witness :
  Version (Meta (example.endpoint_at 8 "https://127.0.0.1:40443")) = 8%N /\
  Update {[ example.endpoint_id := example.endpoint_at 8 "https://127.0.0.1:40443" ]}
    "config.Controller" example.endpoint_id 7
    (example.set_url "https://10.0.0.1:6443")
  = ({[ example.endpoint_id := example.endpoint_at 8 "https://127.0.0.1:40443" ]},
     inl VersionConflict).
Proof.
  destruct (Update_bumps_version
              {[ example.endpoint_id := example.endpoint_at 7 "https://10.0.0.1:6443" ]}
              "config.Controller" example.endpoint_id 7
              (example.set_url "https://127.0.0.1:40443")
              {[ example.endpoint_id := example.endpoint_at 8 "https://127.0.0.1:40443" ]}
              (example.endpoint_at 8 "https://127.0.0.1:40443"))
    as (r & _ & _ & _ & Hversion & _ & Hretry).
  - unfold Update. rewrite lookup_singleton_eq.
    rewrite bool_decide_eq_true_2 by reflexivity.
    rewrite bool_decide_eq_false_2 by (simpl; discriminate).
    rewrite bool_decide_eq_true_2 by reflexivity.
    rewrite bool_decide_eq_false_2 by (simpl; discriminate).
    by rewrite insert_singleton_eq.
  - split; [exact Hversion|].
    apply (Hretry "config.Controller" (example.set_url "https://10.0.0.1:6443")).
Defined.

(** A refused Destroy writes nothing. *)
Lemma Destroy_error s id (v : N) s' (e : Error) :
  Destroy s id v = (s', inl e) -> s' = s.
Proof.
  unfold Destroy. destruct (s !! id) as [r|]; [|by intros [= <- _]].
  repeat case_bool_decide; by intros [= <-].
Qed.

Lemma Destroy_ok s id (v : N) s' r :
  Destroy s id v = (s', inr r) ->
  s !! id = Some r /\ Finalizers (Meta r) = ∅ /\
  Phase_ (Meta r) = TearingDown /\ Version (Meta r) = v /\ s' = delete id s.
Proof.
  unfold Destroy. destruct (s !! id) as [r0|] eqn:Hr; [|done].
  case_bool_decide as Hready; [|done]. case_bool_decide as Hv; [|done].
  intros [= <- <-]. destruct Hready as [Hfin Hphase]. by split_and!.
Qed.

Lemma Destroy_pending s r id (v : N) :
  s !! id = Some r ->
  Finalizers (Meta r) <> ∅ ->
  Destroy s id v = (s, inl Conflict).
Proof.
  intros Hr Hfin. unfold Destroy. rewrite Hr.
  rewrite bool_decide_eq_false_2; [done|]. by intros [? _].
Qed.

(** Attempts that are refused leave the store as it was, so each of them
    is refused in the same way. *)
Lemma DestroyAttempts_refused (n : nat) s id (v : N) (e : Error) :
  Destroy s id v = (s, inl e) ->
  DestroyAttempts n s id v = (s, replicate n (inl e)).
Proof.
  intros Hrefused. induction n as [|n IH]; simpl; [done|].
  by rewrite Hrefused, IH.
Qed.

(** The calls that are not a removal keep every resource in the store. *)
Lemma Create_keeps s (caller : string) r0 id :
  is_Some (s !! id) -> is_Some ((Create s caller r0).1 !! id).
Proof.
  unfold Create. intros Hid.
  destruct (s !! ID (Meta r0)) eqn:Hr0; simpl; [done|].
  rewrite lookup_insert_ne; [done|]. intros <-. rewrite Hr0 in Hid.
  by destruct Hid.
Qed.

Lemma insert_keeps s id id' r' :
  is_Some (s !! id) -> is_Some (<[id' := r']> s !! id).
Proof.
  intros Hid. destruct (decide (id' = id)) as [-> | Hne].
  - rewrite lookup_insert_eq. by eexists.
  - by rewrite lookup_insert_ne.
Qed.

Lemma Update_keeps s (caller : string) id' (v : N) (f : Resource -> Resource) id :
  is_Some (s !! id) -> is_Some ((Update s caller id' v f).1 !! id).
Proof.
  unfold Update. intros Hid. destruct (s !! id'); [|done].
  repeat case_bool_decide; simpl; try done; by apply insert_keeps.
Qed.

Lemma MarkForDestroy_keeps s id' id :
  is_Some (s !! id) -> is_Some ((MarkForDestroy s id').1 !! id).
Proof.
  unfold MarkForDestroy. intros Hid. destruct (s !! id'); [|done].
  case_bool_decide; simpl; [done | by apply insert_keeps].
Qed.

Lemma AddFinalizer_keeps s id' (token : string) id :
  is_Some (s !! id) -> is_Some ((AddFinalizer s id' token).1 !! id).
Proof.
  unfold AddFinalizer. intros Hid. destruct (s !! id'); [|done].
  case_bool_decide; simpl; [done | by apply insert_keeps].
Qed.

(** Releasing a finalizer removes the resource only when it is Tearing
    Down and that finalizer was the last one. *)
Lemma RemoveFinalizer_removes s id' (token : string) id r :
  s !! id = Some r ->
  (RemoveFinalizer s id' token).1 !! id = None ->
  id' = id /\ Phase_ (Meta r) = TearingDown /\
  Finalizers (Meta r) ∖ {[token]} = ∅.
Proof.
  unfold RemoveFinalizer. intros Hr.
  destruct (s !! id') as [r0|] eqn:Hr0; simpl; [|congruence].
  case_bool_decide; simpl; [|congruence].
  case_bool_decide as Hlast; simpl.
  - destruct (decide (id' = id)) as [-> | Hne].
    + intros _. rewrite Hr in Hr0. injection Hr0 as <-.
      simpl in Hlast. by destruct Hlast.
    + rewrite lookup_delete_ne by done. congruence.
  - intros Hnone. assert (is_Some (<[id' := bump (set_Finalizers
      (Finalizers (Meta r0) ∖ {[token]}) r0)]> s !! id)) as [? Hsome].
    { apply insert_keeps. by eexists. }
    congruence.
Qed.

Lemma Destroy_removes s id' (v : N) id r :
  s !! id = Some r ->
  (Destroy s id' v).1 !! id = None ->
  id' = id /\ Phase_ (Meta r) = TearingDown /\ Finalizers (Meta r) = ∅.
Proof.
  intros Hr. destruct (Destroy s id' v) as [s' [e|r0]] eqn:Hd; simpl.
  - apply Destroy_error in Hd as ->. congruence.
  - apply Destroy_ok in Hd as (Hr0 & Hfin & Hphase & _ & ->).
    destruct (decide (id' = id)) as [-> | Hne].
    + intros _. rewrite Hr in Hr0. by injection Hr0 as <-.
    + rewrite lookup_delete_ne by done. congruence.
Qed.

(** C2: Destroy succeeds only on a resource whose finalizer set is empty
    and whose Phase is Tearing Down; while the finalizer set is non-empty
    it is refused with Conflict, writes nothing, and is refused in the same
    way however often it is attempted; and no call of the store removes a
    resource unless it is Tearing Down and its finalizer set is empty, or
    becomes empty by the release that removes it. *)
Theorem Destroy_spec s id (v : N) :
  (forall s' r,
     Destroy s id v = (s', inr r) ->
     s !! id = Some r /\ s' !! id = None /\
     Finalizers (Meta r) = ∅ /\ Phase_ (Meta r) = TearingDown) /\
  (forall r,
     s !! id = Some r ->
     Finalizers (Meta r) <> ∅ ->
     Destroy s id v = (s, inl Conflict) /\
     forall n : nat, DestroyAttempts n s id v = (s, replicate n (inl Conflict))) /\
  (forall (op : Op) r,
     s !! id = Some r ->
     (exec op s).1 !! id = None ->
     Phase_ (Meta r) = TearingDown /\
     (Finalizers (Meta r) = ∅ \/
      exists token : string,
        op = OpRemoveFinalizer id token /\
        Finalizers (Meta r) ∖ {[token]} = ∅)).
Proof.
  split_and!.
  - intros s' r (Hr & Hfin & Hphase & _ & ->)%Destroy_ok.
    split_and!; try done. by rewrite lookup_delete_eq.
  - intros r Hr Hfin.
    pose proof (Destroy_pending s r id v Hr Hfin) as Hrefused.
    split; [done|]. intros n. by apply DestroyAttempts_refused.
  - intros op r Hr Hgone.
    assert (is_Some (s !! id)) as Hid by (by eexists).
    destruct op as [caller r0 | caller id' v' f | id' | id' token | id' token | id' v'];
      simpl in Hgone.
    + apply (Create_keeps s caller r0) in Hid as [? Hsome]. congruence.
    + apply (Update_keeps s caller id' v' f) in Hid as [? Hsome]. congruence.
    + apply (MarkForDestroy_keeps s id') in Hid as [? Hsome]. congruence.
    + apply (AddFinalizer_keeps s id' token) in Hid as [? Hsome]. congruence.
    + destruct (RemoveFinalizer_removes s id' token id r Hr Hgone)
        as (-> & Hphase & Hlast).
      split; [done|]. right. by exists token.
    + destruct (Destroy_removes s id' v' id r Hr Hgone) as (_ & Hphase & Hfin).
      split; [done | by left].
Qed.

Lemma Destroy_spec_witness :
  Destroy {[ example.hosts_id := example.hosts ]} example.hosts_id 3
  = ({[ example.hosts_id := example.hosts ]}, inl Conflict) /\
  DestroyAttempts 3 {[ example.hosts_id := example.hosts ]} example.hosts_id 3
  = ({[ example.hosts_id := example.hosts ]},
     [inl Conflict; inl Conflict; inl Conflict]).
Proof.
  destruct (Destroy_spec {[ example.hosts_id := example.hosts ]}
              example.hosts_id 3) as (_ & Hpending & _).
  destruct (Hpending example.hosts) as [Hrefused Hagain].
  - apply lookup_singleton_eq.
  - intros Hempty.
    assert ("writer" ∈ Finalizers (Meta example.hosts)) as Hin.
    { change ("writer" ∈ ({[ "writer" ]} : gset string)).
      apply elem_of_singleton_2. reflexivity. }
    rewrite Hempty in Hin. by apply not_elem_of_empty in Hin.
  - split; [exact Hrefused | exact (Hagain 3)].
Defined.

End Store.


(** * Further properties of the code *)

(** ** More on the node lookup *)

Section NodesOrder.
Import golang api.
Implicit Types (suite : Clientset) (node : corev1.Node).

(** The inner loop over the addresses of one node. *)
Lemma addresses_loop_Some (item r : corev1.Node) (internalIP : string) :
  for_range (corev1.Addresses (corev1.Status item)) (fun address =>
    if bool_decide (corev1.addr_Type address = corev1.NodeInternalIP) then
      if bool_decide (corev1.addr_Address address = internalIP) then Some item
      else None
    else None) = Some r ->
  r = item.
Proof.
  intros (address & _ & Hbody)%for_range_Some_elem.
  by apply address_match in Hbody as (-> & _).
Qed.

Lemma addresses_loop_found (item : corev1.Node) (internalIP : string)
    (address : corev1.NodeAddress) :
  address ∈ corev1.Addresses (corev1.Status item) ->
  corev1.addr_Type address = corev1.NodeInternalIP ->
  corev1.addr_Address address = internalIP ->
  for_range (corev1.Addresses (corev1.Status item)) (fun address =>
    if bool_decide (corev1.addr_Type address = corev1.NodeInternalIP) then
      if bool_decide (corev1.addr_Address address = internalIP) then Some item
      else None
    else None) = Some item.
Proof.
  intros Hin Hty Hip.
  destruct (for_range _ _) as [r|] eqn:Hloop.
  - by apply addresses_loop_Some in Hloop as ->.
  - rewrite for_range_None in Hloop. specialize (Hloop address Hin).
    rewrite bool_decide_eq_true_2 in Hloop by done.
    by rewrite bool_decide_eq_true_2 in Hloop.
Qed.

Lemma addresses_loop_missing (item : corev1.Node) (internalIP : string) :
  (forall address, address ∈ corev1.Addresses (corev1.Status item) ->
     corev1.addr_Type address = corev1.NodeInternalIP ->
     corev1.addr_Address address <> internalIP) ->
  for_range (corev1.Addresses (corev1.Status item)) (fun address =>
    if bool_decide (corev1.addr_Type address = corev1.NodeInternalIP) then
      if bool_decide (corev1.addr_Address address = internalIP) then Some item
      else None
    else None) = None.
Proof.
  intros Hnone. apply for_range_None. intros address Hin.
  case_bool_decide as Hty; [|done].
  case_bool_decide as Hip; [|done].
  by destruct (Hnone address Hin Hty).
Qed.

(** The outer loop stops at the first node on which the inner loop
    answers. *)
Lemma getNodeByInternalIP_at suite nodeList (internalIP : string)
    pre node post (address : corev1.NodeAddress) :
  Nodes_List suite = inl nodeList ->
  corev1.Items nodeList = (pre ++ node :: post)%list ->
  address ∈ corev1.Addresses (corev1.Status node) ->
  corev1.addr_Type address = corev1.NodeInternalIP ->
  corev1.addr_Address address = internalIP ->
  (forall earlier a, earlier ∈ pre ->
     a ∈ corev1.Addresses (corev1.Status earlier) ->
     corev1.addr_Type a = corev1.NodeInternalIP ->
     corev1.addr_Address a <> internalIP) ->
  getNodeByInternalIP suite internalIP = (Some node, None).
Proof.
  intros Hlist Hitems Hin Hty Hip Hpre.
  unfold getNodeByInternalIP. rewrite Hlist, Hitems.
  assert (for_range (pre ++ node :: post)%list (fun item =>
            for_range (corev1.Addresses (corev1.Status item)) (fun address =>
              if bool_decide (corev1.addr_Type address = corev1.NodeInternalIP) then
                if bool_decide (corev1.addr_Address address = internalIP) then
                  Some item
                else None
              else None)) = Some node) as ->; [|done].
  apply for_range_Some. exists pre, node, post. split_and!; [done | |].
  - by apply (addresses_loop_found node internalIP address).
  - intros earlier Hearlier. apply addresses_loop_missing.
    intros a Ha. by apply (Hpre earlier a).
Qed.

(** Of several listed nodes with the internal IP, the one that comes first
    in the listing is returned. *)
Theorem getNodeByInternalIP_first suite nodeList (internalIP : string)
    pre node post (address : corev1.NodeAddress) :
  Nodes_List suite = inl nodeList ->
  corev1.Items nodeList = (pre ++ node :: post)%list ->
  address ∈ corev1.Addresses (corev1.Status node) ->
  corev1.addr_Type address = corev1.NodeInternalIP ->
  corev1.addr_Address address = internalIP ->
  (forall earlier a, earlier ∈ pre ->
     a ∈ corev1.Addresses (corev1.Status earlier) ->
     corev1.addr_Type a = corev1.NodeInternalIP ->
     corev1.addr_Address a <> internalIP) ->
  getNodeByInternalIP suite internalIP = (Some node, None) /\
  node ∈ corev1.Items nodeList.
Proof.
  intros Hlist Hitems Hin Hty Hip Hpre. split.
  - by apply (getNodeByInternalIP_at suite nodeList internalIP pre node post address).
  - rewrite Hitems. apply elem_of_app. right. left.
Qed.

Lemma getNodeByInternalIP_first_witness :
  getNodeByInternalIP example.duplicated "10.0.0.2"
  = (Some (example.bare_node "stale" "10.0.0.2"), None).
Proof.
  apply (getNodeByInternalIP_first example.duplicated
           {| corev1.Items := [ example.bare_node "stale" "10.0.0.2";
                                example.node "master-1" "10.0.0.2" "True" ] |}
           "10.0.0.2" [] (example.bare_node "stale" "10.0.0.2")
           [ example.node "master-1" "10.0.0.2" "True" ]
           {| corev1.addr_Type := "InternalIP"; corev1.addr_Address := "10.0.0.2" |}).
  - reflexivity.
  - reflexivity.
  - left.
  - reflexivity.
  - reflexivity.
  - intros earlier a Hearlier. inversion Hearlier.
Defined.

(** The call hands back either a node and a nil error, or a nil node and
    an error; the error is the one of the listing, passed on as it is, or
    the not-found error. *)
Theorem getNodeByInternalIP_result suite (internalIP : string) :
  (exists node, getNodeByInternalIP suite internalIP = (Some node, None) /\
     exists nodeList, Nodes_List suite = inl nodeList /\
                      node ∈ corev1.Items nodeList) \/
  (exists err, getNodeByInternalIP suite internalIP = (None, Some err) /\
     (Nodes_List suite = inr err \/
      (exists nodeList, Nodes_List suite = inl nodeList) /\
      err = Errorf (not_found_msg internalIP))).
Proof.
  unfold getNodeByInternalIP.
  destruct (Nodes_List suite) as [nodeList|err] eqn:Hlist.
  - destruct (for_range _ _) as [item|] eqn:Hloop.
    + left. exists item. split; [done|]. exists nodeList. split; [done|].
      apply for_range_Some_elem in Hloop as (item' & Hitem & Hinner).
      by apply addresses_loop_Some in Hinner as ->.
    + right. eexists. split; [done|]. right. split; [by eexists | done].
  - right. exists err. split; [done | by left].
Qed.

(** The readiness is read off the first listed node with the IP alone: when
    that node has no condition of type Ready the call fails, even if a
    later node with the same IP has one. *)
Theorem getNodeReadinessStatus_first_node suite nodeList (internalIP : string)
    pre node post (address : corev1.NodeAddress) :
  Nodes_List suite = inl nodeList ->
  corev1.Items nodeList = (pre ++ node :: post)%list ->
  address ∈ corev1.Addresses (corev1.Status node) ->
  corev1.addr_Type address = corev1.NodeInternalIP ->
  corev1.addr_Address address = internalIP ->
  (forall earlier a, earlier ∈ pre ->
     a ∈ corev1.Addresses (corev1.Status earlier) ->
     corev1.addr_Type a = corev1.NodeInternalIP ->
     corev1.addr_Address a <> internalIP) ->
  (forall c, c ∈ corev1.Conditions (corev1.Status node) ->
     corev1.cond_Type c <> corev1.NodeReady) ->
  getNodeReadinessStatus suite internalIP
  = ("", Some (Errorf (no_readiness_msg internalIP))).
Proof.
  intros Hlist Hitems Hin Hty Hip Hpre Hconds.
  unfold getNodeReadinessStatus.
  rewrite (getNodeByInternalIP_at suite nodeList internalIP pre node post
             address Hlist Hitems Hin Hty Hip Hpre).
  assert (for_range (corev1.Conditions (corev1.Status node))
            (fun condition =>
               if bool_decide (corev1.cond_Type condition = corev1.NodeReady)
               then Some (corev1.cond_Status condition) else None)
          = None) as ->; [|done].
  apply for_range_None. intros c Hc. apply condition_no_match. by apply Hconds.
Qed.

Lemma getNodeReadinessStatus_first_node_witness :
  getNodeReadinessStatus example.duplicated "10.0.0.2"
  = ("", Some (Errorf "node 10.0.0.2 has no readiness condition")).
Proof.
  apply (getNodeReadinessStatus_first_node example.duplicated
           {| corev1.Items := [ example.bare_node "stale" "10.0.0.2";
                                example.node "master-1" "10.0.0.2" "True" ] |}
           "10.0.0.2" [] (example.bare_node "stale" "10.0.0.2")
           [ example.node "master-1" "10.0.0.2" "True" ]
           {| corev1.addr_Type := "InternalIP"; corev1.addr_Address := "10.0.0.2" |}).
  - reflexivity.
  - reflexivity.
  - left.
  - reflexivity.
  - reflexivity.
  - intros earlier a Hearlier. inversion Hearlier.
  - intros c Hc. apply list_elem_of_singleton in Hc as ->. discriminate.
Defined.

End NodesOrder.

(** ** More on the wait for a readiness status *)

Section WaitingMore.
Import golang api.

(** The loop reaches call [k] when every call before it asked for a retry
    and the ticks last that long; what call [k] returns then decides. *)
Lemma Retry_reach (ticks k : nat) (f : nat -> option error) (attempt : nat) :
  attempt <= k <= attempt + ticks ->
  (forall j, attempt <= j < k -> exists e, f j = Some (ExpectedError e)) ->
  Retry ticks f attempt = Retry (attempt + ticks - k) f k.
Proof.
  revert attempt. induction ticks as [|ticks IH]; intros attempt Hk Hbefore.
  - assert (k = attempt) as -> by lia. by replace (attempt + 0 - attempt) with 0 by lia.
  - destruct (decide (k = attempt)) as [-> | Hne].
    + by replace (attempt + S ticks - attempt) with (S ticks) by lia.
    + simpl. destruct (Hbefore attempt) as [e ->]; [lia|].
      rewrite (IH (S attempt)); [| lia | intros j Hj; apply Hbefore; lia].
      by replace (S attempt + ticks - k) with (attempt + S ticks - k) by lia.
Qed.

Lemma Retry_head_nil (ticks : nat) (f : nat -> option error) (k : nat) :
  f k = None -> Retry ticks f k = None.
Proof. intros Hk. destruct ticks; simpl; by rewrite Hk. Qed.

Lemma Retry_head_abort (ticks : nat) (f : nat -> option error) (k : nat) err :
  f k = Some err -> (forall e, err <> ExpectedError e) ->
  Retry ticks f k = Some (ErrorSet err).
Proof.
  intros Hk Hunexpected. destruct ticks; simpl; rewrite Hk;
    destruct err; try done; by destruct (Hunexpected err).
Qed.

(** Whatever the loop returns other than the timeout, it returns with any
    larger number of ticks as well. *)
Lemma Retry_more_ticks (ticks extra : nat) (f : nat -> option error) (attempt : nat) :
  Retry ticks f attempt <> Some TimeoutError ->
  Retry (ticks + extra) f attempt = Retry ticks f attempt.
Proof.
  revert attempt. induction ticks as [|ticks IH]; intros attempt; simpl.
  - destruct (f attempt) as [[]|] eqn:Hf; try done;
      destruct extra; simpl; by rewrite Hf.
  - destruct (f attempt) as [[]|] eqn:Hf; try done. apply IH.
Qed.

(** A poll asks for a retry only on a status that fails the check, unless
    the listing itself hands back an error marked for retry. *)
Lemma pollReadiness_expected suite (nodeInternalIP : string)
    (checkFn : corev1.ConditionStatus -> bool) e :
  (forall e', Nodes_List suite <> inr (ExpectedError e')) ->
  pollReadiness suite nodeInternalIP checkFn = Some (ExpectedError e) ->
  exists status, getNodeReadinessStatus suite nodeInternalIP = (status, None) /\
                 checkFn status = false.
Proof.
  intros Hlist. unfold pollReadiness, getNodeReadinessStatus, getNodeByInternalIP.
  destruct (Nodes_List suite) as [nodeList|err] eqn:Hnodes.
  - destruct (for_range (corev1.Items nodeList) _) as [node|]; [|done].
    destruct (for_range (corev1.Conditions _) _) as [status|]; [|done].
    destruct (checkFn status) eqn:Hcheck; [done|]. intros _. by exists status.
  - intros [= ->]. by destruct (Hlist e).
Qed.

(** The wait returns nil exactly when some poll within the deadline sees a
    status on which [checkFn] holds, and every poll before it saw a status
    on which it fails. *)
Theorem waitForNodeReadinessStatus_nil_iff (cluster : nat -> Clientset) (ticks : nat)
    (nodeInternalIP : string) (checkFn : corev1.ConditionStatus -> bool) :
  (forall k e, Nodes_List (cluster k) <> inr (ExpectedError e)) ->
  waitForNodeReadinessStatus cluster ticks nodeInternalIP checkFn = None <->
  exists k, k <= ticks /\
    (exists status,
       getNodeReadinessStatus (cluster k) nodeInternalIP = (status, None) /\
       checkFn status = true) /\
    forall j, j < k ->
      exists status,
        getNodeReadinessStatus (cluster j) nodeInternalIP = (status, None) /\
        checkFn status = false.
Proof.
  intros Hlist. unfold waitForNodeReadinessStatus. split.
  - intros (k & Hk & Hnil & Hbefore)%Retry_nil.
    exists k. split_and!; [lia | by apply pollReadiness_nil |].
    intros j Hj. destruct (Hbefore j) as [e He]; [lia|].
    by apply (pollReadiness_expected (cluster j) nodeInternalIP checkFn e).
  - intros (k & Hk & Hpass & Hbefore).
    rewrite (Retry_reach ticks k); [| lia |].
    + apply Retry_head_nil. by apply pollReadiness_nil.
    + intros j Hj. destruct (Hbefore j) as (status & Hst & Hcheck); [lia|].
      by apply (pollReadiness_retry _ _ _ status).
Qed.

Lemma waitForNodeReadinessStatus_nil_iff_witness :
  waitForNodeReadinessStatus example.cluster 2 "10.0.0.2" nodeReady = None.
Proof.
  apply (waitForNodeReadinessStatus_nil_iff example.cluster 2 "10.0.0.2" nodeReady).
  - intros k e. unfold example.cluster. by case_decide.
  - exists 2. split_and!.
    + lia.
    + exists "True". by vm_compute.
    + intros j Hj. exists "False".
      destruct j as [|[|j]]; [by vm_compute | by vm_compute | lia].
Defined.

(** A poll at which the lookup fails ends the wait at once with that error:
    it is not retried, whatever later polls would have seen. *)
Theorem waitForNodeReadinessStatus_aborts (cluster : nat -> Clientset)
    (ticks k : nat) (nodeInternalIP : string)
    (checkFn : corev1.ConditionStatus -> bool) status err :
  k <= ticks ->
  (forall j, j < k ->
     exists st, getNodeReadinessStatus (cluster j) nodeInternalIP = (st, None) /\
                checkFn st = false) ->
  getNodeReadinessStatus (cluster k) nodeInternalIP = (status, Some err) ->
  (forall e, err <> ExpectedError e) ->
  waitForNodeReadinessStatus cluster ticks nodeInternalIP checkFn
  = Some (ErrorSet err).
Proof.
  intros Hk Hbefore Herr Hunexpected. unfold waitForNodeReadinessStatus.
  rewrite (Retry_reach ticks k); [| lia |].
  - apply Retry_head_abort; [|done]. unfold pollReadiness. by rewrite Herr.
  - intros j Hj. destruct (Hbefore j) as (st & Hst & Hcheck); [lia|].
    by apply (pollReadiness_retry _ _ _ st).
Qed.

Lemma waitForNodeReadinessStatus_aborts_witness :
  waitForNodeReadinessStatus example.flapping 10 "10.0.0.2" nodeReady
  = Some (ErrorSet (Errorf "node with internal IP 10.0.0.2 not found")).
Proof.
  apply (waitForNodeReadinessStatus_aborts example.flapping 10 1 "10.0.0.2"
           nodeReady "").
  - lia.
  - intros j Hj. exists "False". destruct j as [|j]; [by vm_compute | lia].
  - by vm_compute.
  - discriminate.
Defined.

(** More time never changes an answer other than the timeout: a wait that
    returns nil, or gives up on an error, does the same under any later
    deadline. *)
Theorem waitForNodeReadinessStatus_more_ticks (cluster : nat -> Clientset)
    (ticks ticks' : nat) (nodeInternalIP : string)
    (checkFn : corev1.ConditionStatus -> bool) :
  ticks <= ticks' ->
  waitForNodeReadinessStatus cluster ticks nodeInternalIP checkFn
    <> Some TimeoutError ->
  waitForNodeReadinessStatus cluster ticks' nodeInternalIP checkFn
  = waitForNodeReadinessStatus cluster ticks nodeInternalIP checkFn.
Proof.
  unfold waitForNodeReadinessStatus. intros Hle Hresult.
  replace ticks' with (ticks + (ticks' - ticks)) by lia.
  by apply Retry_more_ticks.
Qed.

Lemma waitForNodeReadinessStatus_more_ticks_witness :
  waitForNodeReadinessStatus example.cluster 7 "10.0.0.2" nodeReady
  = waitForNodeReadinessStatus example.cluster 2 "10.0.0.2" nodeReady.
Proof.
  apply (waitForNodeReadinessStatus_more_ticks example.cluster 2 7 "10.0.0.2"
           nodeReady).
  - lia.
  - by vm_compute.
Defined.



End WaitingMore.

(** ** More on the endpoint update *)

Section EndpointMore.
Import golang v1alpha1 machineapi endpoint.
Context `{TalosAPI}.
Implicit Types (suite : Client) (c : Config) (mem : gmap loc Endpoint).

(** The method does not guard against a configuration without a control
    plane endpoint URL: once the configuration is read and the new URL is
    parsed, a nil pointer on the way to the URL makes it panic. *)
Theorem updateEndpointURL_nil_endpoint suite (nodeIP newURL : string) c mem
    (newEndpointURL : URL) :
  ReadConfigFromNode (machines suite) nodeIP = inl (V1Alpha1 c, mem) ->
  url_Parse newURL = inl newEndpointURL ->
  endpointURL c mem = None ->
  updateEndpointURL suite nodeIP newURL = Panic.
Proof.
  unfold updateEndpointURL, endpointURL, endpointPtr. intros -> ->. simpl.
  destruct (ClusterConfig_ c) as [cluster|]; simpl; [|done].
  destruct (ControlPlane cluster) as [controlPlane|]; simpl; [|done].
  destruct (Endpoint_ controlPlane) as [l|]; simpl; [|done].
  destruct (mem !! l) as [[[u|]]|]; simpl; done.
Qed.

(** The URL handed back is the one the node held: it does not depend on
    the URL that is being set. *)
Theorem updateEndpointURL_old_independent suite (nodeIP : string)
    (newURL1 newURL2 oldURL1 oldURL2 : string) suite1 suite2 :
  updateEndpointURL suite nodeIP newURL1 = Returned (oldURL1, suite1) ->
  updateEndpointURL suite nodeIP newURL2 = Returned (oldURL2, suite2) ->
  oldURL1 = oldURL2.
Proof.
  intros (c1 & mem1 & n1 & l1 & u1 & b1 & m1 & Hread1 & _ & Hptr1 & Hcell1
          & -> & _)%updateEndpointURL_Returned.
  intros (c2 & mem2 & n2 & l2 & u2 & b2 & m2 & Hread2 & _ & Hptr2 & Hcell2
          & -> & _)%updateEndpointURL_Returned.
  rewrite Hread1 in Hread2. injection Hread2 as <- <-.
  rewrite Hptr1 in Hptr2. injection Hptr2 as <-.
  rewrite Hcell1 in Hcell2. by injection Hcell2 as <-.
Qed.

End EndpointMore.

Section EndpointMoreExamples.
Import golang v1alpha1 machineapi endpoint.

Lemma updateEndpointURL_nil_endpoint_witness :
  @updateEndpointURL example.schema example.headless
    {| machines := tt : @Talos example.schema example.headless; applied := [] |}
    "10.0.0.2" "https://127.0.0.1:40443"
  = Panic.
Proof.
  apply (@updateEndpointURL_nil_endpoint example.schema example.headless
           {| machines := tt : @Talos example.schema example.headless; applied := [] |}
           "10.0.0.2" "https://127.0.0.1:40443"
           {| ClusterConfig_ :=
                Some {| ControlPlane := None;
                        Cluster_rest := tt : @ClusterRest example.schema |};
              Config_rest := tt : @ConfigRest example.schema |}
           ∅ ("https://127.0.0.1:40443" : @URL example.schema)).
  - reflexivity.
  - reflexivity.
  - reflexivity.
Defined.

Lemma updateEndpointURL_old_independent_witness :
  exists oldURL suite',
    @updateEndpointURL example.schema example.talos example.suite0 "10.0.0.2"
      "https://10.0.0.9:6443" = Returned (oldURL, suite') /\
    "https://10.0.0.1:6443" = oldURL.
Proof.
  exists "https://10.0.0.1:6443",
    {| machines := {[ "10.0.0.2" := "https://10.0.0.9:6443" ]};
       applied := [ example.request "https://10.0.0.9:6443" ] |}.
  split.
  - vm_compute. reflexivity.
  - apply (@updateEndpointURL_old_independent example.schema example.talos
             example.suite0 "10.0.0.2"
             "https://127.0.0.1:40443" "https://10.0.0.9:6443"
             "https://10.0.0.1:6443" "https://10.0.0.1:6443"
             example.suite1
             {| machines := {[ "10.0.0.2" := "https://10.0.0.9:6443" ]};
                applied := [ example.request "https://10.0.0.9:6443" ] |}).
    + vm_compute. reflexivity.
    + vm_compute. reflexivity.
Defined.

End EndpointMoreExamples.

(** ** The test as a whole *)

Section TestRun.
Import golang v1alpha1 machineapi endpoint integration.
Context `{TalosAPI}.
Implicit Types (suite : Client).

(** A test that runs to its end has made both updates, the second one with
    the URL the first one returned, under a context that was not over. *)
Lemma Test_Finished (short : bool) suite (nodeInternalIP : string)
    (ctxDone1 : bool) (outage : nat -> api.Clientset) (ticks1 : nat)
    (ctxDone2 : bool) (reverted : nat -> api.Clientset) (ticks2 : nat)
    (failed : bool) suite2 :
  TestUpdateControlPlaneEndpoint short suite nodeInternalIP ctxDone1 outage
    ticks1 ctxDone2 reverted ticks2 = Finished failed suite2 ->
  short = false /\ ctxDone1 = false /\ ctxDone2 = false /\
  exists oldURL suite1 url,
    updateEndpointURL suite nodeInternalIP invalidURL = Returned (oldURL, suite1) /\
    updateEndpointURL suite1 nodeInternalIP oldURL = Returned (url, suite2) /\
    failed =
      Assert_NoError
        (Assert_NoError false
           (api.waitForNodeReadinessStatus outage ticks1 nodeInternalIP
              api.nodeNotReady))
        (api.waitForNodeReadinessStatus reverted ticks2 nodeInternalIP api.nodeReady).
Proof.
  unfold TestUpdateControlPlaneEndpoint. destruct short; [done|].
  destruct ctxDone1; [done|].
  destruct (updateEndpointURL suite nodeInternalIP invalidURL)
    as [[oldURL suite1]| |] eqn:Hfirst; try done.
  destruct ctxDone2; [done|]. simpl.
  destruct (timed_out _); [done|].
  destruct (updateEndpointURL suite1 nodeInternalIP oldURL)
    as [[url suite2']| |] eqn:Hsecond; try done.
  intros [= <- <-]. split_and!; try done. by exists oldURL, suite1, url.
Qed.

(** A test that runs to its end has sent exactly two requests, both to the
    picked node and both in no-reboot mode; the second one carries a
    configuration whose endpoint URL is what [url.Parse] makes of the text
    of the URL the node held before the test, which is that URL itself
    exactly when its text parses back to it. *)
Theorem Test_restores_endpoint (short : bool) suite (nodeInternalIP : string)
    (ctxDone1 : bool) (outage : nat -> api.Clientset) (ticks1 : nat)
    (ctxDone2 : bool) (reverted : nat -> api.Clientset) (ticks2 : nat)
    (failed : bool) suite2 :
  TestUpdateControlPlaneEndpoint short suite nodeInternalIP ctxDone1 outage
    ticks1 ctxDone2 reverted ticks2 = Finished failed suite2 ->
  exists c mem u0 bytes1 bytes2 c' mem' u',
    ReadConfigFromNode (machines suite) nodeInternalIP = inl (V1Alpha1 c, mem) /\
    endpointURL c mem = Some u0 /\
    applied suite2 = (applied suite ++
      [ (nodeInternalIP,
         {| Data := bytes1; Mode := ApplyConfigurationRequest_NO_REBOOT |});
        (nodeInternalIP,
         {| Data := bytes2; Mode := ApplyConfigurationRequest_NO_REBOOT |}) ])%list /\
    Bytes c' mem' = inl bytes2 /\
    url_Parse (url_String u0) = inl u' /\
    endpointURL c' mem' = Some u' /\
    (endpointURL c' mem' = Some u0 <-> url_Parse (url_String u0) = inl u0).
Proof.
  intros (_ & _ & _ & oldURL & suite1 & url & Hfirst & Hsecond & _)%Test_Finished.
  apply updateEndpointURL_Returned in Hfirst
    as (c & mem & n1 & l & u0 & bytes1 & m1 & Hread & _ & Hptr & Hcell & Hold
        & _ & _ & ->).
  apply updateEndpointURL_Returned in Hsecond
    as (c' & mem1 & u' & l' & u1 & bytes2 & m2 & _ & Hparse & Hptr' & _ & _
        & Hbytes & _ & ->).
  rewrite Hold in Hparse.
  exists c, mem, u0, bytes1, bytes2, c',
    (<[l' := {| Endpoint_URL := Some u' |}]> mem1), u'.
  rewrite (endpointURL_insert c' mem1 l' u' Hptr').
  split_and!; try done.
  - unfold endpointURL. rewrite Hptr. simpl. by rewrite Hcell.
  - simpl. by rewrite <- app_assoc.
  - rewrite Hparse. split; intros [= ->]; done.
Qed.


End TestRun.

Section TestRunExamples.
Import golang v1alpha1 machineapi endpoint integration.

(** The test on the small cluster: it passes and leaves the endpoint as it
    found it. *)
Example Test_on_example :
  @TestUpdateControlPlaneEndpoint example.schema example.talos false
    example.suite0 "10.0.0.2" false example.cluster 5 false example.cluster 5
  = Finished false example.suite2.
Proof. vm_compute. reflexivity. Qed.

Lemma Test_restores_endpoint_witness :
  exists (u0 : string) bytes1 bytes2,
    u0 = "https://10.0.0.1:6443" /\
    @applied example.schema example.talos example.suite2
    = [ ("10.0.0.2",
         {| Data := bytes1; Mode := ApplyConfigurationRequest_NO_REBOOT |});
        ("10.0.0.2",
         {| Data := bytes2; Mode := ApplyConfigurationRequest_NO_REBOOT |}) ].
Proof.
  destruct (@Test_restores_endpoint example.schema example.talos false
              example.suite0 "10.0.0.2" false example.cluster 5 false
              example.cluster 5 false example.suite2)
    as (c & mem & u0 & bytes1 & bytes2 & c' & mem' & u' & Hread & Hurl
        & Happlied & _).
  - vm_compute. reflexivity.
  - exists u0, bytes1, bytes2. split; [|exact Happlied].
    vm_compute in Hread. injection Hread as <- <-.
    vm_compute in Hurl. by injection Hurl as <-.
Defined.


End TestRunExamples.

(** ** The errors of the readiness lookup *)

Section ReadinessErrors.
Import golang api.

(** An error of [getNodeReadinessStatus] comes with the empty status and is
    one of three: the error of the listing, passed on as it is, the
    not-found error of the node lookup, or the error for a node without a
    condition of type Ready. *)
Theorem getNodeReadinessStatus_errors (suite : Clientset) (nodeInternalIP : string)
    (status : corev1.ConditionStatus) (err : error) :
  getNodeReadinessStatus suite nodeInternalIP = (status, Some err) ->
  status = "" /\
  (Nodes_List suite = inr err \/
   err = Errorf ("node with internal IP " ++ nodeInternalIP ++ " not found") \/
   err = Errorf ("node " ++ nodeInternalIP ++ " has no readiness condition")).
Proof.
  unfold getNodeReadinessStatus, getNodeByInternalIP.
  destruct (Nodes_List suite) as [nodeList|listErr].
  - destruct (for_range (corev1.Items nodeList) _) as [node|].
    + destruct (for_range (corev1.Conditions _) _) as [st|]; [done|].
      intros [= <- <-]. split; [done|]. right. by right.
    + intros [= <- <-]. split; [done|]. right. by left.
  - intros [= <- <-]. split; [done | by left].
Qed.

Lemma getNodeReadinessStatus_errors_witness :
  Nodes_List (example.flapping 1) = inr (Errorf "node with internal IP 10.0.0.2 not found") \/
  Errorf "node with internal IP 10.0.0.2 not found"
    = Errorf ("node with internal IP " ++ "10.0.0.2" ++ " not found") \/
  Errorf "node with internal IP 10.0.0.2 not found"
    = Errorf ("node " ++ "10.0.0.2" ++ " has no readiness condition").
Proof.
  destruct (getNodeReadinessStatus_errors (example.flapping 1) "10.0.0.2" ""
              (Errorf "node with internal IP 10.0.0.2 not found")) as [_ Hkind].
  - by vm_compute.
  - exact Hkind.
Defined.

End ReadinessErrors.
